(** * Verification of [implementors/core/ops/trait.Place.js]

    The file is a generated implementor listing: an immediately invoked
    function that builds one object, [implementors], fills its single
    property and then either calls the hook [window.register_implementors]
    with it or parks it in [window.pending_implementors].

    The development embeds the script over a small model of the JavaScript
    store (the properties of [window] and a heap of objects addressed by
    reference), and states the properties of the listing against it. *)

From Stdlib Require Import ZArith Ascii String.
From stdpp Require Import gmap strings list fin_maps.

Open Scope string_scope.

(** ** The literal data of line 2 *)

Module Listing.

Definition impl_IntermediateBox : string :=
  "impl&lt;T&gt; <a class='trait' href='https://doc.rust-lang.org/nightly/core/ops/trait.Place.html' title='core::ops::Place'>Place</a>&lt;T&gt; for <a class='struct' href='https://doc.rust-lang.org/nightly/alloc/boxed/struct.IntermediateBox.html' title='alloc::boxed::IntermediateBox'>IntermediateBox</a>&lt;T&gt;".

Definition impl_BinaryHeapPlace : string :=
  "impl&lt;'a, T&gt; <a class='trait' href='https://doc.rust-lang.org/nightly/core/ops/trait.Place.html' title='core::ops::Place'>Place</a>&lt;T&gt; for <a class='struct' href='https://doc.rust-lang.org/nightly/collections/binary_heap/struct.BinaryHeapPlace.html' title='collections::binary_heap::BinaryHeapPlace'>BinaryHeapPlace</a>&lt;'a, T&gt; <span class='where fmt-newline'>where T: <a class='trait' href='https://doc.rust-lang.org/nightly/core/clone/trait.Clone.html' title='core::clone::Clone'>Clone</a> + <a class='trait' href='https://doc.rust-lang.org/nightly/core/cmp/trait.Ord.html' title='core::cmp::Ord'>Ord</a></span>".

Definition impl_FrontPlace : string :=
  "impl&lt;'a, T&gt; <a class='trait' href='https://doc.rust-lang.org/nightly/core/ops/trait.Place.html' title='core::ops::Place'>Place</a>&lt;T&gt; for <a class='struct' href='https://doc.rust-lang.org/nightly/collections/linked_list/struct.FrontPlace.html' title='collections::linked_list::FrontPlace'>FrontPlace</a>&lt;'a, T&gt;".

Definition impl_BackPlace : string :=
  "impl&lt;'a, T&gt; <a class='trait' href='https://doc.rust-lang.org/nightly/core/ops/trait.Place.html' title='core::ops::Place'>Place</a>&lt;T&gt; for <a class='struct' href='https://doc.rust-lang.org/nightly/collections/linked_list/struct.BackPlace.html' title='collections::linked_list::BackPlace'>BackPlace</a>&lt;'a, T&gt;".

Definition impl_PlaceBack : string :=
  "impl&lt;'a, T&gt; <a class='trait' href='https://doc.rust-lang.org/nightly/core/ops/trait.Place.html' title='core::ops::Place'>Place</a>&lt;T&gt; for <a class='struct' href='https://doc.rust-lang.org/nightly/collections/vec/struct.PlaceBack.html' title='collections::vec::PlaceBack'>PlaceBack</a>&lt;'a, T&gt;".

(** The array literal, in the order of the source.  The comma that closes
    the literal adds no element. *)
Definition biscuit_impls : list string :=
  [impl_IntermediateBox; impl_BinaryHeapPlace; impl_FrontPlace; impl_BackPlace; impl_PlaceBack].

End Listing.

(** ** A model of the JavaScript store *)

Module JS.

(** Objects live in a heap and are handled by reference; a function object
    is known by its identity. *)
Definition loc := positive.
Definition fid := positive.

Inductive value :=
| VUndefined
| VNull
| VBool (b : bool)
| VNumber (n : Z)
| VNaN
| VString (s : string)
| VRef (l : loc)
| VFun (f : fid).

(** ToBoolean, as used by the condition of an [if]. *)
Definition truthy (v : value) : bool :=
  match v with
  | VUndefined | VNull | VNaN => false
  | VBool b => b
  | VNumber n => negb (n =? 0)%Z
  | VString EmptyString => false
  | VString (String _ _) => true
  | VRef _ | VFun _ => true
  end.

Definition is_string (v : value) : bool :=
  match v with VString _ => true | _ => false end.

Inductive object :=
| OPlain (props : gmap string value)
| OArray (elems : list value).

(** The global object [window] and the heap of all other objects. *)
Record store := Store {
  window : gmap string value;
  heap : gmap loc object
}.

(** Reading a property that is not there yields [undefined]. *)
Definition get_prop (o : gmap string value) (k : string) : value :=
  default VUndefined (o !! k).

(** What a statement can throw, and how a call into host code ends.
    [TypeError] is the error the call expression raises itself when the
    callee is not callable; whatever a function of the page throws, an
    error object of any kind included, is a [Raised] value. *)
Inductive thrown :=
| TypeError
| Raised (v : value).

Inductive host_result :=
| Returns (v : value)
| Throws (v : value).

(** The two effects of the script that leave its own scope: calling a
    function with arguments (the store is the one the callee is entered
    with) and writing a property of [window] (the store is the one right
    after the write). *)
Inductive event :=
| Invoked (f : fid) (args : list value) (pre : store)
| Stored (k : string) (v : value) (post : store).

Record state := State {
  st : store;
  trace : list event
}.

Inductive result (A : Type) :=
| Ok (a : A)
| Err (e : thrown).
Arguments Ok {A} a.
Arguments Err {A} e.

(** Statements are state transformers that may throw. *)
Definition js (A : Type) : Type := state → result A * state.

#[global] Instance js_ret : MRet js := λ A a s, (Ok a, s).
#[global] Instance js_bind : MBind js := λ A B k m s,
  match m s with
  | (Ok a, s') => k a s'
  | (Err e, s') => (Err e, s')
  end.

Definition fresh_loc (h : gmap loc object) : loc := fresh (dom h).

Definition alloc (o : object) : js loc := λ s,
  let l := fresh_loc (heap (st s)) in
  (Ok l, State (Store (window (st s)) (<[l := o]> (heap (st s)))) (trace s)).

(** [{}] *)
Definition new_object : js loc := alloc (OPlain ∅).

(** [[e1, ..., en]] *)
Definition new_array (elems : list value) : js loc := alloc (OArray elems).

(** [o[k] = v] for a plain object [o].  The script only ever assigns to the
    object it has just created; other targets are left as they are. *)
Definition put (l : loc) (k : string) (v : value) : js unit := λ s,
  match heap (st s) !! l with
  | Some (OPlain m) =>
      (Ok (), State (Store (window (st s))
                          (<[l := OPlain (<[k := v]> m)]> (heap (st s))))
                    (trace s))
  | _ => (Ok (), s)
  end.

(** [window.k] *)
Definition get_window (k : string) : js value := λ s,
  (Ok (get_prop (window (st s)) k), s).

(** [window.k = v] *)
Definition set_window (k : string) (v : value) : js unit := λ s,
  let σ := Store (<[k := v]> (window (st s))) (heap (st s)) in
  (Ok (), State σ (trace s ++ [Stored k v σ])).

(** Lines 1 and 2: the object and its single property. *)
Definition build : js loc :=
  implementors ← new_object;
  arr ← new_array (VString <$> Listing.biscuit_impls);
  put implementors "biscuit" (VRef arr);;
  mret implementors.

Definition init (σ : store) : state := State σ [].

Section Script.

(** The behaviour of the function objects of the page, which are not part
    of this file: called with arguments in a store, a function leaves a
    store behind and returns or throws. *)
Variable host : fid → list value → store → store * host_result.

(** [callee(args)] as a statement: a value that is not callable makes the
    call throw a TypeError, what the callee throws is passed on, what it
    returns is dropped. *)
Definition call (callee : value) (args : list value) : js unit := λ s,
  match callee with
  | VFun f =>
      let '(σ, r) := host f args (st s) in
      let s' := State σ (trace s ++ [Invoked f args (st s)]) in
      match r with
      | Returns _ => (Ok (), s')
      | Throws v => (Err (Raised v), s')
      end
  | _ => (Err TypeError, s)
  end.

(** Lines 4 to 8. *)
Definition dispatch (implementors : loc) : js unit :=
  hook ← get_window "register_implementors";
  if truthy hook then
    callee ← get_window "register_implementors";
    call callee [VRef implementors]
  else
    set_window "pending_implementors" (VRef implementors).

(** The whole function body, lines 1 to 10. *)
Definition script : js unit :=
  implementors ← new_object;
  arr ← new_array (VString <$> Listing.biscuit_impls);
  put implementors "biscuit" (VRef arr);;
  hook ← get_window "register_implementors";
  if truthy hook then
    callee ← get_window "register_implementors";
    call callee [VRef implementors]
  else
    set_window "pending_implementors" (VRef implementors).

Definition run (σ : store) : result unit * state := script (init σ).

End Script.

End JS.

(** ** What the statements below speak about *)

Module Contract.
Import JS.

(** The value found in [window.register_implementors]. *)
Definition hook_slot (σ : store) : value :=
  get_prop (window σ) "register_implementors".

(** The hook slot is falsy or holds a function. *)
Definition hook_callable (σ : store) : bool :=
  match hook_slot σ with
  | VFun _ => true
  | v => negb (truthy v)
  end.

(** [v] refers to the listing as line 2 leaves it: one property, biscuit,
    holding the array of the five descriptions in source order. *)
Definition is_listing (h : gmap loc object) (v : value) : Prop :=
  ∃ l a, v = VRef l
    ∧ h !! l = Some (OPlain {[ "biscuit" := VRef a ]})
    ∧ h !! a = Some (OArray (VString <$> Listing.biscuit_impls)).

(** [v] refers to an object all of whose properties hold arrays of
    strings. *)
Definition string_seq_mapping (h : gmap loc object) (v : value) : Prop :=
  ∃ l m, v = VRef l
    ∧ h !! l = Some (OPlain m)
    ∧ map_Forall (λ _ x, ∃ a ss, x = VRef a
                           ∧ h !! a = Some (OArray (VString <$> ss))) m.

Definition is_window_write (e : event) : bool :=
  match e with Invoked _ _ _ => false | Stored _ _ _ => true end.

(** The value an event hands over and the store it is handed over in. *)
Definition handed_off (e : event) : list value * store :=
  match e with
  | Invoked _ args pre => (args, pre)
  | Stored _ v post => ([v], post)
  end.

Section WithHost.
Variable host : fid → list value → store → store * host_result.

(** Every invocation recorded in the trace returned. *)
Definition invocations_return (s : state) : bool :=
  forallb (λ e, match e with
                | Invoked f args pre =>
                    match (host f args pre).2 with
                    | Returns _ => true
                    | Throws _ => false
                    end
                | Stored _ _ _ => true
                end) (trace s).

(** One run hands the listing over exactly once: to the hook when the hook
    slot is truthy, to [window.pending_implementors] otherwise. *)
Definition hands_off_once (σ : store) : Prop :=
  let s := (run host σ).2 in
  if truthy (hook_slot σ) then
    ∃ f v pre, hook_slot σ = VFun f
      ∧ trace s = [Invoked f [v] pre]
      ∧ is_listing (heap pre) v
  else
    ∃ v, trace s = [Stored "pending_implementors" v (st s)]
      ∧ window (st s) !! "pending_implementors" = Some v
      ∧ is_listing (heap (st s)) v.

Definition completes_normally (σ : store) : Prop :=
  (run host σ).1 = Ok ().

End WithHost.

(** The outcomes of a run, by the content of the hook slot. *)
Inductive outcome host (σ : store) (l : loc) (sb : state) : Prop :=
| deferred :
    truthy (hook_slot σ) = false →
    (let σ' := Store (<["pending_implementors" := VRef l]> (window σ))
                     (heap (st sb)) in
     run host σ = (Ok (), State σ' [Stored "pending_implementors" (VRef l) σ'])) →
    outcome host σ l sb
| invoked (f : fid) :
    hook_slot σ = VFun f →
    run host σ =
      (match (host f [VRef l] (st sb)).2 with
       | Returns _ => Ok ()
       | Throws v => Err (Raised v)
       end,
       State (host f [VRef l] (st sb)).1 [Invoked f [VRef l] (st sb)]) →
    outcome host σ l sb
| not_callable :
    truthy (hook_slot σ) = true →
    (∀ f, hook_slot σ ≠ VFun f) →
    run host σ = (Err TypeError, sb) →
    outcome host σ l sb.

(** Host functions whose outcome is not fixed by their input are given by
    a relation; a run is admitted when each invocation it records was
    answered in line with the relation. *)
Definition host_rel : Type :=
  fid → list value → store → store * host_result → Prop.

Definition answers (R : host_rel)
    (host : fid → list value → store → store * host_result)
    (s : state) : Prop :=
  ∀ f args pre, Invoked f args pre ∈ trace s → R f args pre (host f args pre).

Definition exec (R : host_rel) (σ : store) (r : result unit * state) : Prop :=
  ∃ host, r = run host σ ∧ answers R host r.2.

Definition deterministic (R : host_rel) : Prop :=
  ∀ f args σ r1 r2, R f args σ r1 → R f args σ r2 → r1 = r2.




(** Whether [needle] occurs in [hay]. *)
Fixpoint is_substring (needle hay : string) : bool :=
  String.prefix needle hay ||
  match hay with
  | EmptyString => false
  | String _ hay' => is_substring needle hay'
  end.

Definition nonempty (s : string) : bool :=
  match s with EmptyString => false | String _ _ => true end.

(** Two behaviours of the functions of the page that differ at most in
    the values the functions return: they leave the same store, and one
    throws a value exactly when the other throws it. *)
Definition same_but_returns
    (h1 h2 : fid → list value → store → store * host_result) : Prop :=
  ∀ f args σ,
    (h1 f args σ).1 = (h2 f args σ).1
    ∧ ∀ v, (h1 f args σ).2 = Throws v ↔ (h2 f args σ).2 = Throws v.

End Contract.

(** ** The text of the file *)

Module SourceText.

Definition newline : Ascii.ascii := "010"%char.
Definition dq : string := String "034"%char EmptyString.
Definition quoted (s : string) : string := dq +:+ s +:+ dq.

Definition line1 : string := "(function() {var implementors = {};".
Definition line2 : string :=
  "implementors[" +:+ quoted "biscuit" +:+ "] = [" +:+
  String.concat EmptyString
    ((λ s, quoted s +:+ ",") <$> Listing.biscuit_impls) +:+ "];".
Definition line3 : string := EmptyString.
Definition line4 : string := "            if (window.register_implementors) {".
Definition line5 : string := "                window.register_implementors(implementors);".
Definition line6 : string := "            } else {".
Definition line7 : string := "                window.pending_implementors = implementors;".
Definition line8 : string := "            }".
Definition line9 : string := "        ".
Definition line10 : string := "})()".

Definition source_lines : list string :=
  [line1; line2; line3; line4; line5; line6; line7; line8; line9; line10].

(** The file: its lines joined by newlines, the last one not terminated. *)
Definition source_text : string :=
  String.concat (String newline EmptyString) source_lines.

Fixpoint count_newlines (s : string) : nat :=
  match s with
  | EmptyString => 0
  | String c s' => (if Ascii.eqb c newline then 1 else 0) + count_newlines s'
  end.

(** The pieces of a text between its newlines. *)
Fixpoint split_lines (s : string) : list string :=
  match s with
  | EmptyString => [EmptyString]
  | String c s' =>
      if Ascii.eqb c newline then EmptyString :: split_lines s'
      else match split_lines s' with
           | l :: ls => String c l :: ls
           | [] => [String c EmptyString]
           end
  end.

(** Lines as an editor counts them: a newline at the very end of the text
    does not open a further line. *)
Definition line_count (s : string) : nat :=
  match reverse (split_lines s) with
  | EmptyString :: ls => length ls
  | ls => length ls
  end.

End SourceText.

(** ** Concrete pages *)

Module Samples.
Import JS.

(** A hook that returns at once and one that throws. *)
Definition host_quiet : fid → list value → store → store * host_result :=
  λ _ _ σ, (σ, Returns VUndefined).

Definition host_throwing : fid → list value → store → store * host_result :=
  λ _ _ σ, (σ, Throws (VString "not ready")).

(** A function that throws only when it is called without arguments. *)
Definition host_selective : fid → list value → store → store * host_result :=
  λ _ args σ,
    match args with
    | [] => (σ, Throws VNull)
    | _ :: _ => (σ, Returns VUndefined)
    end.

(** A hook that keeps what it is given in [window.all_implementors]. *)
Definition host_keeping : fid → list value → store → store * host_result :=
  λ _ args σ,
    (Store (<["all_implementors" := default VUndefined (head args)]> (window σ))
           (heap σ),
     Returns VUndefined).

(** The page before the hook is installed, with the hook installed, and
    with a number where the hook should be. *)
Definition page_early : store :=
  Store {[ "title" := VString "Place" ]} ∅.

Definition page_hooked : store :=
  Store {[ "register_implementors" := VFun 1%positive ]} ∅.

Definition page_number : store :=
  Store {[ "register_implementors" := VNumber 1 ]} ∅.

Definition rel_quiet : Contract.host_rel :=
  λ _ _ σ r, r = (σ, Returns VUndefined).

(** A hook that returns a number. *)
Definition host_answering : fid → list value → store → store * host_result :=
  λ _ _ σ, (σ, Returns (VNumber 7)).

(** The page with the hook installed and an object of its own in the
    heap. *)
Definition page_hooked_busy : store :=
  Store {[ "register_implementors" := VFun 1%positive ]}
        {[ 1%positive := OArray [VNumber 3]; 2%positive := OPlain ∅ ]}.


(** A page with a stale value parked and an object of its own. *)
Definition page_stale : store :=
  Store {[ "pending_implementors" := VNull; "title" := VString "Place" ]}
        {[ 1%positive := OArray [VNumber 3] ]}.

End Samples.

(** * Properties *)

Module Facts.
Import JS Contract.

(** ** Allocation and the construction of the listing *)

Lemma fresh_loc_new (h : gmap loc object) : h !! fresh_loc h = None.
Proof.
  apply not_elem_of_dom. unfold fresh_loc. apply is_fresh.
Qed.

Lemma alloc_run (o : object) (s : state) :
  alloc o s =
    (Ok (fresh_loc (heap (st s))),
     State (Store (window (st s)) (<[fresh_loc (heap (st s)) := o]> (heap (st s))))
           (trace s)).
Proof. reflexivity. Qed.

(** The state lines 1 and 2 leave behind, spelled out. *)
Lemma build_run (s : state) :
  ∃ l a h,
    build s = (Ok l, State (Store (window (st s)) h) (trace s))
    ∧ l = fresh_loc (heap (st s))
    ∧ l ≠ a
    ∧ heap (st s) !! a = None
    ∧ h = <[l := OPlain {[ "biscuit" := VRef a ]}]>
            (<[a := OArray (VString <$> Listing.biscuit_impls)]> (heap (st s))).
Proof.
  set (l := fresh_loc (heap (st s))).
  set (a := fresh_loc (<[l := OPlain ∅]> (heap (st s)))).
  assert (Ha : <[l := OPlain ∅]> (heap (st s)) !! a = None)
    by apply fresh_loc_new.
  assert (Hla : l ≠ a).
  { intros E. rewrite <- E, lookup_insert_eq in Ha. discriminate. }
  exists l, a. eexists. split; [|split; [reflexivity|split; [exact Hla|split]]].
  - unfold build, new_object, new_array, mbind, js_bind, mret, js_ret.
    rewrite alloc_run. fold l. cbn [st heap window trace].
    rewrite alloc_run. cbn [st heap window trace]. fold a.
    unfold put. cbn [st heap window trace].
    rewrite lookup_insert_ne by (intros E; apply Hla; symmetry; exact E).
    rewrite lookup_insert_eq. reflexivity.
  - rewrite lookup_insert_ne in Ha by exact Hla. exact Ha.
  - rewrite insert_empty.
    rewrite (insert_insert_ne (heap (st s)) a l) by (intros E; apply Hla; symmetry; exact E).
    rewrite insert_insert_eq. reflexivity.
Qed.

Lemma build_listing (σ : store) :
  ∃ l sb,
    build (init σ) = (Ok l, sb)
    ∧ window (st sb) = window σ
    ∧ trace sb = []
    ∧ is_listing (heap (st sb)) (VRef l)
    ∧ (∀ l', is_Some (heap σ !! l') → heap (st sb) !! l' = heap σ !! l').
Proof.
  destruct (build_run (init σ)) as (l & a & h & Hb & Hl & Hla & Ha & Hh).
  cbn [init st heap window trace] in *.
  exists l, (State (Store (window σ) h) []).
  split; [exact Hb|]. cbn [st heap window trace].
  split; [reflexivity|]. split; [reflexivity|].
  split.
  - exists l, a. subst h. split; [reflexivity|]. split.
    + apply lookup_insert_eq.
    + rewrite lookup_insert_ne by exact Hla. apply lookup_insert_eq.
  - intros l' [o Ho]. subst h.
    rewrite !lookup_insert_ne; [reflexivity| |].
    + intros E. subst l'. rewrite Ha in Ho. discriminate.
    + intros E. rewrite <- E, Hl, fresh_loc_new in Ho. discriminate.
Qed.

(** The function body is the construction followed by the dispatch. *)
Lemma script_split host (s : state) :
  script host s = (build ≫= dispatch host) s.
Proof.
  unfold script, build, dispatch, mbind, js_bind, mret, js_ret.
  unfold new_object, new_array, alloc.
  cbn [st heap window trace]. unfold put. cbn [st heap window trace].
  match goal with |- context [match ?x with Some _ => _ | None => _ end] =>
    destruct x as [[?|?]|] end; reflexivity.
Qed.

(** ** The three ways the dispatch can go *)

Lemma dispatch_falsy host (l : loc) (s : state) :
  truthy (hook_slot (st s)) = false →
  dispatch host l s = set_window "pending_implementors" (VRef l) s.
Proof.
  intros H. unfold dispatch, mbind, js_bind, get_window.
  unfold hook_slot in H. rewrite H. reflexivity.
Qed.

Lemma dispatch_truthy host (l : loc) (s : state) :
  truthy (hook_slot (st s)) = true →
  dispatch host l s = call host (hook_slot (st s)) [VRef l] s.
Proof.
  intros H. unfold dispatch, mbind, js_bind, get_window.
  unfold hook_slot in *. rewrite H. reflexivity.
Qed.

Lemma call_function host (f : fid) (args : list value) (s : state) :
  call host (VFun f) args s =
    (match (host f args (st s)).2 with
     | Returns _ => Ok ()
     | Throws v => Err (Raised v)
     end,
     State (host f args (st s)).1 (trace s ++ [Invoked f args (st s)])).
Proof.
  unfold call. destruct (host f args (st s)) as [σ' [v|v]]; reflexivity.
Qed.

Lemma call_not_function host (v : value) (args : list value) (s : state) :
  (∀ f, v ≠ VFun f) → call host v args s = (Err TypeError, s).
Proof.
  intros H. destruct v; try reflexivity. exfalso. eapply H. reflexivity.
Qed.

Lemma hook_callable_function (σ : store) :
  hook_callable σ = true → truthy (hook_slot σ) = true →
  ∃ f, hook_slot σ = VFun f.
Proof.
  unfold hook_callable. intros Hc Ht.
  destruct (hook_slot σ) eqn:E; try (rewrite Ht in Hc; discriminate).
  eexists. reflexivity.
Qed.

(** A run, from the store the construction leaves. *)
Lemma run_built host (σ : store) :
  ∃ l sb,
    build (init σ) = (Ok l, sb)
    ∧ window (st sb) = window σ
    ∧ trace sb = []
    ∧ is_listing (heap (st sb)) (VRef l)
    ∧ run host σ = dispatch host l sb.
Proof.
  destruct (build_listing σ) as (l & sb & Hb & Hw & Ht & Hl & _).
  exists l, sb. repeat (split; [assumption|]).
  unfold run. rewrite script_split. unfold mbind, js_bind. rewrite Hb. reflexivity.
Qed.

Lemma hook_slot_built (σ : store) (sb : state) :
  window (st sb) = window σ → hook_slot (st sb) = hook_slot σ.
Proof. unfold hook_slot. intros ->. reflexivity. Qed.

Lemma run_cases host (σ : store) :
  ∃ l sb,
    build (init σ) = (Ok l, sb)
    ∧ window (st sb) = window σ
    ∧ trace sb = []
    ∧ is_listing (heap (st sb)) (VRef l)
    ∧ outcome host σ l sb.
Proof.
  destruct (run_built host σ) as (l & sb & Hb & Hw & Ht & Hl & Hr).
  exists l, sb. repeat (split; [assumption|]).
  pose proof (hook_slot_built σ sb Hw) as Hs.
  destruct (truthy (hook_slot σ)) eqn:Etr.
  - rewrite dispatch_truthy in Hr by (rewrite Hs; exact Etr).
    rewrite Hs in Hr.
    destruct (hook_slot σ) as [| | | | | | |f] eqn:Eslot.
    8: { apply (invoked host σ l sb f); [exact Eslot|].
         rewrite Hr, call_function, Ht. reflexivity. }
    all: apply not_callable;
      [rewrite Eslot; exact Etr
      |rewrite Eslot; intros f; discriminate
      |rewrite Hr; apply call_not_function; intros f; discriminate].
  - apply deferred; [exact Etr|].
    rewrite dispatch_falsy in Hr by (rewrite Hs; exact Etr).
    rewrite Hr. unfold set_window. rewrite Ht, Hw. reflexivity.
Qed.

(** ** Two runs traced by hand *)

(** Before the hook is there: the listing is parked, the rest of [window]
    stays. *)
Example run_page_early :
  (run Samples.host_quiet Samples.page_early).1 = Ok ()
  ∧ window (st (run Samples.host_quiet Samples.page_early).2)
    = {[ "pending_implementors" := VRef 1%positive;
         "title" := VString "Place" ]}
  ∧ heap (st (run Samples.host_quiet Samples.page_early).2) !! 1%positive
    = Some (OPlain {[ "biscuit" := VRef 2%positive ]}).
Proof. repeat split; vm_compute; reflexivity. Qed.

(** With the hook there: it is called with the listing, and nothing is
    parked. *)
Example run_page_hooked :
  (run Samples.host_keeping Samples.page_hooked).1 = Ok ()
  ∧ window (st (run Samples.host_keeping Samples.page_hooked).2)
      !! "all_implementors" = Some (VRef 1%positive)
  ∧ window (st (run Samples.host_keeping Samples.page_hooked).2)
      !! "pending_implementors" = None
  ∧ length (trace (run Samples.host_keeping Samples.page_hooked).2) = 1.
Proof. repeat split; vm_compute; reflexivity. Qed.

(** ** Hand-off *)

(** C1, as amended.  When [window.register_implementors] is falsy or holds
    a function, one run hands the listing over exactly once: a truthy slot
    gets exactly one invocation of the function it holds, with the listing
    as the sole argument and no write to [window]; a falsy slot gets the
    listing stored in [window.pending_implementors] and no invocation. *)
Theorem hands_off_once_callable host (σ : store) :
  hook_callable σ = true → hands_off_once host σ.
Proof.
  intros Hc. unfold hands_off_once.
  destruct (run_cases host σ) as (l & sb & Hb & Hw & Ht & Hl & [Hf Hr|f Hs Hr|Htr Hn Hr]).
  - rewrite Hf, Hr. cbn [snd st trace window heap].
    exists (VRef l). split; [reflexivity|]. split; [apply lookup_insert_eq|exact Hl].
  - rewrite Hs, Hr. cbn [truthy snd st trace].
    exists f, (VRef l), (st sb). repeat split. exact Hl.
  - destruct (hook_callable_function σ Hc Htr) as [f Hf].
    exfalso. exact (Hn f Hf).
Qed.

Lemma hands_off_once_callable_witness :
  hook_callable Samples.page_hooked = true
  ∧ hands_off_once Samples.host_keeping Samples.page_hooked.
Proof.
  split; [reflexivity|].
  apply (hands_off_once_callable Samples.host_keeping Samples.page_hooked).
  reflexivity.
Defined.

(** C1, as stated, fails on a page whose hook slot holds the number 1: the
    slot is truthy, the call throws a TypeError, and the run has neither
    invoked anything nor written [window.pending_implementors]. *)
Lemma hands_off_once_fails_on_number :
  truthy (hook_slot Samples.page_number) = true
  ∧ trace (run Samples.host_quiet Samples.page_number).2 = []
  ∧ window (st (run Samples.host_quiet Samples.page_number).2)
      !! "pending_implementors" = None
  ∧ ¬ hands_off_once Samples.host_quiet Samples.page_number.
Proof.
  split; [reflexivity|]. split; [vm_compute; reflexivity|].
  split; [vm_compute; reflexivity|].
  unfold hands_off_once.
  replace (truthy (hook_slot Samples.page_number)) with true by reflexivity.
  intros (f & v & pre & Hs & _). vm_compute in Hs. discriminate.
Qed.

(** ** Completion *)

(** Whatever a run throws under a callable hook was thrown by the hook:
    the script raises no error of its own. *)
Lemma no_error_of_its_own host (σ : store) :
  hook_callable σ = true → (run host σ).1 ≠ Err TypeError.
Proof.
  intros Hc.
  destruct (run_cases host σ) as (l & sb & _ & _ & _ & _ & [Hf Hr|f Hs Hr|Htr Hn Hr]).
  - rewrite Hr. discriminate.
  - rewrite Hr. cbn [fst]. destruct (host f [VRef l] (st sb)).2; discriminate.
  - destruct (hook_callable_function σ Hc Htr) as [f Hf].
    exfalso. exact (Hn f Hf).
Qed.

(** C3, as amended.  When [window.register_implementors] is falsy or holds
    a function, and the invocation of that function returns, the run
    completes normally in both branches; with a falsy slot the run always
    completes normally, by storing the listing in
    [window.pending_implementors]. *)
Theorem completes_when_hook_returns host (σ : store) :
  hook_callable σ = true →
  invocations_return host (run host σ).2 = true →
  completes_normally host σ
  ∧ (truthy (hook_slot σ) = false →
     ∃ v, trace (run host σ).2 = [Stored "pending_implementors" v (st (run host σ).2)]
          ∧ is_listing (heap (st (run host σ).2)) v).
Proof.
  intros Hc Hret. unfold completes_normally.
  destruct (run_cases host σ) as (l & sb & _ & _ & _ & Hl & [Hf Hr|f Hs Hr|Htr Hn Hr]).
  - rewrite Hr. cbn [fst snd st trace heap]. split; [reflexivity|].
    intros _. exists (VRef l). split; [reflexivity|exact Hl].
  - rewrite Hr in Hret |- *. cbn [fst snd st trace] in *.
    unfold invocations_return in Hret. cbn [trace forallb] in Hret.
    split.
    + destruct (host f [VRef l] (st sb)).2; [reflexivity|discriminate].
    + rewrite Hs. cbn [truthy]. discriminate.
  - destruct (hook_callable_function σ Hc Htr) as [f Hf].
    exfalso. exact (Hn f Hf).
Qed.

Lemma completes_when_hook_returns_witness :
  hook_callable Samples.page_hooked = true
  ∧ invocations_return Samples.host_keeping
      (run Samples.host_keeping Samples.page_hooked).2 = true
  ∧ completes_normally Samples.host_keeping Samples.page_hooked.
Proof.
  split; [reflexivity|]. split; [vm_compute; reflexivity|].
  apply (completes_when_hook_returns Samples.host_keeping Samples.page_hooked).
  - reflexivity.
  - vm_compute. reflexivity.
Defined.

(** C3, as stated, fails on a page whose hook is a function that throws:
    the precondition holds, yet the run ends by throwing what the hook
    threw. *)
Lemma throwing_hook_ends_run_abruptly :
  hook_callable Samples.page_hooked = true
  ∧ (run Samples.host_throwing Samples.page_hooked).1
      = Err (Raised (VString "not ready"))
  ∧ ¬ completes_normally Samples.host_throwing Samples.page_hooked.
Proof.
  split; [reflexivity|]. split; [vm_compute; reflexivity|].
  unfold completes_normally. vm_compute. discriminate.
Qed.

(** ** The listing *)

(** C2.  The object the script constructs has exactly one property, named
    biscuit; property names are unique; the property holds a non-empty
    array all of whose elements are strings.  This is the object every run
    dispatches on. *)
Theorem listing_one_key (σ : store) :
  ∃ l sb m a vs,
    build (init σ) = (Ok l, sb)
    ∧ (∀ host, run host σ = dispatch host l sb)
    ∧ heap (st sb) !! l = Some (OPlain m)
    ∧ dom m = {[ "biscuit" ]}
    ∧ size m = 1
    ∧ NoDup (map_to_list m).*1
    ∧ m !! "biscuit" = Some (VRef a)
    ∧ heap (st sb) !! a = Some (OArray vs)
    ∧ vs ≠ []
    ∧ forallb is_string vs = true.
Proof.
  destruct (build_listing σ) as (l & sb & Hb & Hw & Ht & (l' & a & E & Hl & Ha) & _).
  injection E as <-.
  exists l, sb, {[ "biscuit" := VRef a ]}, a, (VString <$> Listing.biscuit_impls).
  split; [exact Hb|]. split.
  { intros host. unfold run. rewrite script_split. unfold mbind, js_bind.
    rewrite Hb. reflexivity. }
  split; [exact Hl|]. split; [apply dom_singleton_L|].
  split; [apply map_size_singleton|]. split; [apply NoDup_fst_map_to_list|].
  split; [apply lookup_singleton_eq|]. split; [exact Ha|].
  split; [discriminate|reflexivity].
Qed.

Lemma append_cons (c : Ascii.ascii) (s t : string) :
  String c s +:+ t = String c (s +:+ t).
Proof. reflexivity. Qed.

Lemma append_nil (t : string) : EmptyString +:+ t = t.
Proof. reflexivity. Qed.

Lemma prefix_app (n h : string) :
  String.prefix n h = true ↔ ∃ post, h = n +:+ post.
Proof.
  revert h. induction n as [|c n IH]; intros h; cbn [String.prefix].
  - destruct h; (split; [intros _; eexists; reflexivity|reflexivity]).
  - destruct h as [|c' h]; cbn [String.prefix].
    + split; [discriminate|]. intros [post E]. discriminate.
    + destruct (Ascii.ascii_dec c c') as [<-|Hne].
      * rewrite IH. split; intros [post E]; exists post;
          rewrite append_cons in *; congruence.
      * split; [discriminate|]. intros [post E].
        rewrite append_cons in E. congruence.
Qed.

(** [is_substring] decides occurrence. *)
Lemma is_substring_spec (n h : string) :
  is_substring n h = true ↔ ∃ pre post, h = pre +:+ n +:+ post.
Proof.
  induction h as [|c h IH]; cbn [is_substring].
  - rewrite orb_false_r, prefix_app. split.
    + intros [post E]. exists EmptyString, post. exact E.
    + intros ([|c pre] & post & E); [exists post; exact E|discriminate].
  - rewrite orb_true_iff, prefix_app, IH. split.
    + intros [[post E]|(pre & post & E)].
      * exists EmptyString, post. exact E.
      * exists (String c pre), post. rewrite append_cons. congruence.
    + intros ([|c' pre] & post & E).
      * left. exists post. exact E.
      * right. exists pre, post. rewrite append_cons in E. congruence.
Qed.

(** C9.  The array stored under biscuit has exactly five elements; each is
    a non-empty string in which trait.Place.html occurs. *)
Theorem listing_content (σ : store) :
  ∃ l sb a ss,
    build (init σ) = (Ok l, sb)
    ∧ heap (st sb) !! l = Some (OPlain {[ "biscuit" := VRef a ]})
    ∧ heap (st sb) !! a = Some (OArray (VString <$> ss))
    ∧ length ss = 5
    ∧ Forall (λ s, nonempty s = true
                   ∧ ∃ pre post, s = pre +:+ "trait.Place.html" +:+ post) ss.
Proof.
  destruct (build_listing σ) as (l & sb & Hb & _ & _ & (l' & a & E & Hl & Ha) & _).
  injection E as <-.
  exists l, sb, a, Listing.biscuit_impls.
  repeat (split; [first [assumption|reflexivity]|]).
  unfold Listing.biscuit_impls.
  repeat constructor; try (apply is_substring_spec; vm_compute; reflexivity).
Qed.

(** ** From construction to hand-off *)

Lemma is_listing_shape (h : gmap loc object) (v : value) :
  is_listing h v → string_seq_mapping h v.
Proof.
  intros (l & a & -> & Hl & Ha). exists l, {[ "biscuit" := VRef a ]}.
  split; [reflexivity|]. split; [exact Hl|].
  apply map_Forall_singleton. exists a, Listing.biscuit_impls.
  split; [reflexivity|exact Ha].
Qed.

(** C4.  The script allocates the listing and its array once, and nothing
    touches the heap between line 2 and the hand-off: whichever way the
    listing is handed over (as the argument of the hook or as the value
    written to [window.pending_implementors]), what is handed over is the
    reference to the constructed object, in a heap equal to the one line 2
    left, where it still has its one property biscuit holding the five
    descriptions in source order. *)
Theorem handed_off_as_built host (σ : store) :
  ∃ l a sb,
    build (init σ) = (Ok l, sb)
    ∧ dom (heap (st sb)) = {[ l; a ]} ∪ dom (heap σ)
    ∧ (l ∉ dom (heap σ)) ∧ (a ∉ dom (heap σ)) ∧ l ≠ a
    ∧ heap (st sb) !! l = Some (OPlain {[ "biscuit" := VRef a ]})
    ∧ heap (st sb) !! a = Some (OArray (VString <$> Listing.biscuit_impls))
    ∧ length Listing.biscuit_impls = 5
    ∧ Forall (λ e, (handed_off e).1 = [VRef l]
                   ∧ heap (handed_off e).2 = heap (st sb))
             (trace (run host σ).2).
Proof.
  destruct (build_run (init σ)) as (l & a & h & Hb & Hl & Hla & Ha & Hh).
  cbn [init st heap window trace] in *.
  destruct (run_cases host σ) as (l' & sb & Hb' & _ & _ & _ & Hout).
  rewrite Hb in Hb'. injection Hb' as <- <-.
  cbn [st heap] in *.
  exists l, a, (State (Store (window σ) h) []). cbn [st heap].
  split; [exact Hb|]. split.
  { subst h. rewrite !dom_insert_L, (assoc_L (∪)). reflexivity. }
  split. { rewrite Hl. apply not_elem_of_dom, fresh_loc_new. }
  split. { apply not_elem_of_dom, Ha. }
  split; [exact Hla|].
  split. { subst h. apply lookup_insert_eq. }
  split. { subst h. rewrite lookup_insert_ne by exact Hla. apply lookup_insert_eq. }
  split; [reflexivity|].
  destruct Hout as [Hf Hr|f Hs Hr|Htr Hn Hr]; rewrite Hr; cbn [snd trace].
  - repeat constructor.
  - repeat constructor.
  - constructor.
Qed.

(** C5.  Every invocation the script makes passes exactly one argument, a
    reference to an object whose properties, keyed by strings, each hold an
    array of strings; that object is the listing itself. *)
Theorem hook_argument_shape host (σ : store) :
  Forall (λ e, match e with
               | Invoked f args pre =>
                   hook_slot σ = VFun f
                   ∧ ∃ v, args = [v]
                          ∧ string_seq_mapping (heap pre) v
                          ∧ is_listing (heap pre) v
               | Stored _ _ _ => True
               end)
         (trace (run host σ).2).
Proof.
  destruct (run_cases host σ) as (l & sb & _ & _ & Ht & Hl & [Hf Hr|f Hs Hr|Htr Hn Hr]);
    rewrite Hr; cbn [snd trace].
  - repeat constructor.
  - constructor; [|constructor]. split; [exact Hs|].
    exists (VRef l). split; [reflexivity|].
    split; [apply is_listing_shape|]; exact Hl.
  - rewrite Ht. constructor.
Qed.

(** ** Frame *)

(** C7.  The only write the script makes to [window] is the one to
    [pending_implementors], and it makes it only when the hook slot is
    falsy; then every other property, [register_implementors] included,
    keeps its value.  When the slot is truthy the script writes nothing:
    the hook is entered with [window] as it was, the store at the end of
    the run is the one the hook left, and a run that invoked nothing ends
    with [window] as it was. *)
Theorem window_frame host (σ : store) :
  let s := (run host σ).2 in
  Forall (λ e, match e with
               | Stored k _ _ =>
                   k = "pending_implementors" ∧ truthy (hook_slot σ) = false
               | Invoked f args pre =>
                   window pre = window σ ∧ st s = (host f args pre).1
               end) (trace s)
  ∧ (truthy (hook_slot σ) = false →
     ∃ v, window (st s) = <["pending_implementors" := v]> (window σ)
          ∧ ∀ k, k ≠ "pending_implementors" →
                 window (st s) !! k = window σ !! k)
  ∧ (truthy (hook_slot σ) = true →
     Forall (λ e, is_window_write e = false) (trace s)
     ∧ (trace s = [] → window (st s) = window σ)).
Proof.
  cbn zeta.
  destruct (run_cases host σ) as (l & sb & _ & Hw & Ht & _ & [Hf Hr|f Hs Hr|Htr Hn Hr]);
    rewrite Hr; cbn [snd st trace window].
  - split; [repeat constructor; exact Hf|]. split.
    + intros _. exists (VRef l). split; [reflexivity|].
      intros k Hk. apply lookup_insert_ne. congruence.
    + rewrite Hf. discriminate.
  - split; [repeat constructor; exact Hw|]. split.
    + rewrite Hs. discriminate.
    + intros _. split; [repeat constructor|discriminate].
  - rewrite Ht. split; [constructor|]. split.
    + rewrite Htr. discriminate.
    + intros _. split; [constructor|]. intros _. exact Hw.
Qed.

(** ** Determinism *)

(** When the functions of the page answer each invocation in one way
    only, a store admits one run: two runs from the very same store, heap
    included, end with the same completion, the same store and the same
    trace of invocations and writes, arguments included. *)
Theorem run_deterministic (R : host_rel) (σ : store)
    (r1 r2 : result unit * state) :
  deterministic R → exec R σ r1 → exec R σ r2 → r1 = r2.
Proof.
  intros Hdet (h1 & -> & A1) (h2 & -> & A2).
  destruct (run_cases h1 σ) as (l & sb & Hb & _ & _ & _ & O1).
  destruct (run_cases h2 σ) as (l' & sb' & Hb' & _ & _ & _ & O2).
  rewrite Hb in Hb'. injection Hb' as <- <-.
  destruct O1 as [Hf1 Hr1|f1 Hs1 Hr1|Ht1 Hn1 Hr1];
    destruct O2 as [Hf2 Hr2|f2 Hs2 Hr2|Ht2 Hn2 Hr2].
  - rewrite Hr1, Hr2. reflexivity.
  - rewrite Hs2 in Hf1. discriminate.
  - congruence.
  - rewrite Hs1 in Hf2. discriminate.
  - assert (f1 = f2) as <- by congruence.
    assert (E : h1 f1 [VRef l] (st sb) = h2 f1 [VRef l] (st sb)).
    { apply (Hdet f1 [VRef l] (st sb)).
      - apply A1. rewrite Hr1. cbn [snd trace]. apply list_elem_of_here.
      - apply A2. rewrite Hr2. cbn [snd trace]. apply list_elem_of_here. }
    rewrite Hr1, Hr2, E. reflexivity.
  - exfalso. exact (Hn2 f1 Hs1).
  - congruence.
  - exfalso. exact (Hn1 f2 Hs2).
  - rewrite Hr1, Hr2. reflexivity.
Qed.

Lemma exec_run host (σ : store) :
  exec (λ f args σ' r, r = host f args σ') σ (run host σ).
Proof. exists host. split; [reflexivity|]. intros f args pre _. reflexivity. Qed.

Lemma run_deterministic_witness :
  deterministic Samples.rel_quiet
  ∧ exec Samples.rel_quiet Samples.page_hooked
      (run Samples.host_quiet Samples.page_hooked)
  ∧ exec Samples.rel_quiet Samples.page_hooked
      (run Samples.host_selective Samples.page_hooked)
  ∧ run Samples.host_quiet Samples.page_hooked
    = run Samples.host_selective Samples.page_hooked.
Proof.
  assert (D : deterministic Samples.rel_quiet).
  { intros f args σ r1 r2 E1 E2. unfold Samples.rel_quiet in *. congruence. }
  assert (E1 : exec Samples.rel_quiet Samples.page_hooked
                 (run Samples.host_quiet Samples.page_hooked)).
  { exists Samples.host_quiet. split; [reflexivity|].
    intros f args pre _. reflexivity. }
  assert (E2 : exec Samples.rel_quiet Samples.page_hooked
                 (run Samples.host_selective Samples.page_hooked)).
  { exists Samples.host_selective. split; [reflexivity|].
    intros f args pre Hin. vm_compute in Hin.
    apply list_elem_of_singleton in Hin. injection Hin as -> -> ->.
    reflexivity. }
  split; [exact D|]. split; [exact E1|]. split; [exact E2|].
  exact (run_deterministic Samples.rel_quiet Samples.page_hooked _ _ D E1 E2).
Defined.

Lemma is_listing_weaken (h h' : gmap loc object) (v : value) :
  h ⊆ h' → is_listing h v → is_listing h' v.
Proof.
  intros Hsub (l & a & -> & Hl & Ha). exists l, a.
  split; [reflexivity|].
  split; eapply lookup_weaken; eassumption.
Qed.




(** The two runs of the witness differ in the reference they hand over. *)
Example runs_differ_in_reference :
  trace (run Samples.host_keeping Samples.page_hooked).2
  = [Invoked 1%positive [VRef 1%positive]
       (st (build (init Samples.page_hooked)).2)]
  ∧ trace (run Samples.host_keeping Samples.page_hooked_busy).2
    = [Invoked 1%positive [VRef 3%positive]
         (st (build (init Samples.page_hooked_busy)).2)]
  ∧ window (st (run Samples.host_keeping Samples.page_hooked).2)
      !! "all_implementors" = Some (VRef 1%positive)
  ∧ window (st (run Samples.host_keeping Samples.page_hooked_busy).2)
      !! "all_implementors" = Some (VRef 3%positive).
Proof. repeat split; vm_compute; reflexivity. Qed.

(** ** The text of the file *)

Example line_count_terminated :
  SourceText.line_count (String "a" (String SourceText.newline EmptyString)) = 1.
Proof. reflexivity. Qed.

Example line_count_unterminated :
  SourceText.line_count (String "a" (String SourceText.newline (String "b" EmptyString))) = 2.
Proof. reflexivity. Qed.

Lemma split_source_text :
  SourceText.split_lines SourceText.source_text = SourceText.source_lines.
Proof. vm_compute. reflexivity. Qed.

(** C6, as amended.  The file is 10 lines long: nine lines ended by a
    newline and a tenth, the closing of the function, that is not; it is
    2200 characters in all. *)
Theorem source_ten_lines :
  SourceText.line_count SourceText.source_text = 10
  ∧ length (SourceText.split_lines SourceText.source_text) = 10
  ∧ SourceText.count_newlines SourceText.source_text = 9
  ∧ String.length SourceText.source_text = 2200.
Proof. repeat split; vm_compute; reflexivity. Qed.

(** C6, as stated, fails: however lines are counted, the file does not
    have 11 of them. *)
Lemma source_not_eleven_lines :
  SourceText.line_count SourceText.source_text ≠ 11
  ∧ length (SourceText.split_lines SourceText.source_text) ≠ 11
  ∧ SourceText.count_newlines SourceText.source_text ≠ 11.
Proof. repeat split; vm_compute; discriminate. Qed.

End Facts.

(** * Further behaviour of the function body *)

Module Behaviour.
Import JS Contract.

(** A run, with what the construction leaves and what it keeps. *)
Lemma run_cases_frame host (σ : store) :
  ∃ l sb,
    build (init σ) = (Ok l, sb)
    ∧ window (st sb) = window σ
    ∧ trace sb = []
    ∧ is_listing (heap (st sb)) (VRef l)
    ∧ heap σ !! l = None
    ∧ heap σ ⊆ heap (st sb)
    ∧ outcome host σ l sb.
Proof.
  destruct (Facts.run_cases host σ) as (l & sb & Hb & Hw & Ht & Hl & Ho).
  destruct (Facts.build_listing σ) as (l' & sb' & Hb' & _ & _ & _ & Hfr).
  destruct (Facts.build_run (init σ)) as (l'' & a & h & Hb'' & Hfresh & _).
  rewrite Hb in Hb', Hb''. injection Hb' as <- <-. injection Hb'' as <- ->.
  exists l, (State (Store (window (st (init σ))) h) (trace (init σ))).
  repeat (split; [assumption|]).
  split. { rewrite Hfresh. apply Facts.fresh_loc_new. }
  split; [|exact Ho].
  apply map_subseteq_spec. intros l' o Hlo.
  rewrite Hfr by (rewrite Hlo; eexists; reflexivity). exact Hlo.
Qed.

(** ** How a run can end *)

Lemma falsy_callable (σ : store) :
  truthy (hook_slot σ) = false → hook_callable σ = true.
Proof.
  unfold hook_callable. intros H.
  destruct (hook_slot σ); first [discriminate H | rewrite H; reflexivity].
Qed.

(** X1.  A run ends by throwing without having entered any function
    exactly when [window.register_implementors] is truthy and not a
    function.  What is thrown then is the error of the call expression
    itself, applied to a value that is not callable; nothing has been
    handed over and [window] is as the run found it. *)
Theorem throws_uninvoked_iff host (σ : store) :
  ((run host σ).1 ≠ Ok () ∧ trace (run host σ).2 = []
   ↔ hook_callable σ = false)
  ∧ (hook_callable σ = false →
     (run host σ).1 = Err TypeError
     ∧ window (st (run host σ).2) = window σ).
Proof.
  destruct (Facts.run_cases host σ)
    as (l & sb & _ & Hw & Ht & _ & [Hf Hr|f Hs Hr|Htr Hn Hr]);
    rewrite Hr; cbn [fst snd st trace].
  - rewrite (falsy_callable σ Hf). split; [|discriminate].
    split; [|discriminate]. intros [H _]. exfalso. apply H. reflexivity.
  - assert (Hc : hook_callable σ = true)
      by (unfold hook_callable; rewrite Hs; reflexivity).
    rewrite Hc. split; [|discriminate].
    split; [|discriminate]. intros [_ H]. discriminate H.
  - assert (Hc : hook_callable σ = false).
    { unfold hook_callable.
      destruct (hook_slot σ) as [| | | | | | |f] eqn:E;
        try (rewrite Htr; reflexivity).
      exfalso. exact (Hn f eq_refl). }
    split; [|intros _; split; [reflexivity|exact Hw]].
    split; [intros _; exact Hc|]. intros _. split; [discriminate|exact Ht].
Qed.

(** X2.  A run completes normally exactly when the hook slot is falsy or
    holds a function and the invocation the run made, if any, returned. *)
Theorem completes_normally_iff host (σ : store) :
  completes_normally host σ
  ↔ hook_callable σ = true ∧ invocations_return host (run host σ).2 = true.
Proof.
  unfold completes_normally, invocations_return.
  destruct (Facts.run_cases host σ)
    as (l & sb & _ & Hw & Ht & _ & [Hf Hr|f Hs Hr|Htr Hn Hr]);
    rewrite Hr; cbn [fst snd st trace forallb].
  - split; [|reflexivity]. intros _. split; [|reflexivity].
    exact (falsy_callable σ Hf).
  - unfold hook_callable. rewrite Hs.
    destruct (host f [VRef l] (st sb)).2; split;
      try discriminate; try (intros [_ H]; discriminate); intros _;
      split; reflexivity.
  - split; [discriminate|]. intros [Hc _].
    destruct (Facts.hook_callable_function σ Hc Htr) as [f Hf].
    exfalso. exact (Hn f Hf).
Qed.

(** X3.  A run throws a value other than a TypeError exactly when the hook
    is a function that, called with the listing as its sole argument,
    threw that value: what the hook throws leaves the script unchanged and
    uncaught. *)
Theorem hook_exception_passed_on host (σ : store) (v : value) :
  (run host σ).1 = Err (Raised v)
  ↔ ∃ f l pre,
      hook_slot σ = VFun f
      ∧ trace (run host σ).2 = [Invoked f [VRef l] pre]
      ∧ is_listing (heap pre) (VRef l)
      ∧ (host f [VRef l] pre).2 = Throws v.
Proof.
  destruct (Facts.run_cases host σ)
    as (l & sb & _ & Hw & Ht & Hl & [Hf Hr|f Hs Hr|Htr Hn Hr]);
    rewrite Hr; cbn [fst snd st trace].
  - split; [discriminate|]. intros (f & l' & pre & _ & E & _). discriminate.
  - split.
    + intros E. exists f, l, (st sb). repeat (split; [first [assumption|reflexivity]|]).
      destruct (host f [VRef l] (st sb)).2; congruence.
    + intros (f' & l' & pre & _ & E & _ & Hthrow).
      injection E as <- <- <-. rewrite Hthrow. reflexivity.
  - split; [discriminate|]. rewrite Ht. intros (f & l' & pre & _ & E & _).
    discriminate.
Qed.

(** ** What a run does not depend on *)

(** X4.  The value the hook returns is dropped: two behaviours of the
    functions of the page that leave the same stores and throw the same
    values, and differ only in what the functions return, give the same
    run. *)
Theorem return_value_dropped h1 h2 (σ : store) :
  same_but_returns h1 h2 → run h1 σ = run h2 σ.
Proof.
  intros Hsame.
  destruct (Facts.run_cases h1 σ) as (l & sb & Hb & _ & _ & _ & O1).
  destruct (Facts.run_cases h2 σ) as (l' & sb' & Hb' & _ & _ & _ & O2).
  rewrite Hb in Hb'. injection Hb' as <- <-.
  destruct O1 as [Hf1 Hr1|f1 Hs1 Hr1|Ht1 Hn1 Hr1];
    destruct O2 as [Hf2 Hr2|f2 Hs2 Hr2|Ht2 Hn2 Hr2];
    try congruence.
  - rewrite Hs2 in Hf1. discriminate.
  - rewrite Hs1 in Hf2. discriminate.
  - assert (f1 = f2) as <- by congruence.
    destruct (Hsame f1 [VRef l] (st sb)) as [Hst Hthrow].
    rewrite Hr1, Hr2, Hst. f_equal.
    destruct (h1 f1 [VRef l] (st sb)).2 as [v1|v1] eqn:E1;
      destruct (h2 f1 [VRef l] (st sb)).2 as [v2|v2] eqn:E2.
    + reflexivity.
    + pose proof (proj2 (Hthrow v2) eq_refl) as E. discriminate E.
    + pose proof (proj1 (Hthrow v1) eq_refl) as E. discriminate E.
    + pose proof (proj1 (Hthrow v1) eq_refl) as E. congruence.
Qed.

Lemma return_value_dropped_witness :
  same_but_returns Samples.host_quiet Samples.host_answering
  ∧ run Samples.host_quiet Samples.page_hooked
    = run Samples.host_answering Samples.page_hooked.
Proof.
  assert (H : same_but_returns Samples.host_quiet Samples.host_answering).
  { intros f args σ. split; [reflexivity|]. intros v.
    split; intros E; discriminate E. }
  split; [exact H|].
  exact (return_value_dropped Samples.host_quiet Samples.host_answering
           Samples.page_hooked H).
Defined.

(** X5.  With a falsy hook slot no function of the page is called: the run
    is the same whatever those functions do. *)
Theorem deferred_ignores_host h1 h2 (σ : store) :
  truthy (hook_slot σ) = false → run h1 σ = run h2 σ.
Proof.
  intros Hf.
  destruct (Facts.run_cases h1 σ) as (l & sb & Hb & _ & _ & _ & O1).
  destruct (Facts.run_cases h2 σ) as (l' & sb' & Hb' & _ & _ & _ & O2).
  rewrite Hb in Hb'. injection Hb' as <- <-.
  destruct O1 as [_ Hr1|f1 Hs1 Hr1|Ht1 _ Hr1];
    [|rewrite Hs1 in Hf; discriminate|congruence].
  destruct O2 as [_ Hr2|f2 Hs2 Hr2|Ht2 _ Hr2];
    [|rewrite Hs2 in Hf; discriminate|congruence].
  rewrite Hr1, Hr2. reflexivity.
Qed.

Lemma deferred_ignores_host_witness :
  truthy (hook_slot Samples.page_stale) = false
  ∧ run Samples.host_throwing Samples.page_stale
    = run Samples.host_keeping Samples.page_stale.
Proof.
  split; [reflexivity|].
  apply (deferred_ignores_host Samples.host_throwing Samples.host_keeping
           Samples.page_stale).
  reflexivity.
Defined.

(** ** What a run leaves alone *)

(** X6.  The script changes no object that was there before it ran: the
    listing is a new object, and at every hand-off, and at the end of a
    run that handed nothing over, each object of the initial heap is still
    in the heap with the content it had. *)
Theorem heap_frame host (σ : store) :
  Forall (λ e, heap σ ⊆ heap (handed_off e).2
               ∧ ∃ l, (handed_off e).1 = [VRef l] ∧ heap σ !! l = None)
         (trace (run host σ).2)
  ∧ (trace (run host σ).2 = [] → heap σ ⊆ heap (st (run host σ).2)).
Proof.
  destruct (run_cases_frame host σ)
    as (l & sb & _ & _ & Ht & _ & Hnew & Hsub & [Hf Hr|f Hs Hr|Htr Hn Hr]);
    rewrite Hr; cbn [snd st trace heap].
  - split; [|discriminate]. constructor; [|constructor].
    cbn [handed_off fst snd heap]. split; [exact Hsub|].
    exists l. split; [reflexivity|exact Hnew].
  - split; [|discriminate]. constructor; [|constructor].
    cbn [handed_off fst snd]. split; [exact Hsub|].
    exists l. split; [reflexivity|exact Hnew].
  - rewrite Ht. split; [constructor|]. intros _. exact Hsub.
Qed.

Lemma hook_slot_after_store (w : gmap string value) (h h' : gmap loc object)
    (v : value) :
  hook_slot (Store (<["pending_implementors" := v]> w) h')
  = hook_slot (Store w h).
Proof.
  unfold hook_slot, get_prop. cbn [window].
  rewrite lookup_insert_ne by discriminate. reflexivity.
Qed.

(** ** Running the script again *)

(** X7.  Loaded twice before the hook is installed, the script parks a
    second listing over the first: after the second run
    [window.pending_implementors] refers to a new object, different from
    the one the first run parked, the rest of [window] is as it was before
    the first run, and both listings are in the heap with the same
    content. *)
Theorem deferred_twice host (σ : store) :
  truthy (hook_slot σ) = false →
  ∃ l1 l2,
    l1 ≠ l2
    ∧ (run host σ).1 = Ok ()
    ∧ window (st (run host σ).2) !! "pending_implementors" = Some (VRef l1)
    ∧ (run host (st (run host σ).2)).1 = Ok ()
    ∧ window (st (run host (st (run host σ).2)).2)
      = <["pending_implementors" := VRef l2]> (window σ)
    ∧ is_listing (heap (st (run host (st (run host σ).2)).2)) (VRef l1)
    ∧ is_listing (heap (st (run host (st (run host σ).2)).2)) (VRef l2).
Proof.
  intros Hf.
  destruct (run_cases_frame host σ)
    as (l1 & sb1 & _ & _ & _ & Hl1 & _ & _ & [_ Hr1|f Hs _|Htr _ _]);
    [|rewrite Hs in Hf; discriminate|congruence].
  cbn zeta in Hr1. rewrite Hr1. cbn [fst snd st window].
  set (σ1 := Store (<["pending_implementors" := VRef l1]> (window σ))
                   (heap (st sb1))).
  assert (Hf1 : truthy (hook_slot σ1) = false).
  { unfold σ1. rewrite (hook_slot_after_store _ (heap σ)).
    destruct σ. exact Hf. }
  destruct (run_cases_frame host σ1)
    as (l2 & sb2 & _ & _ & _ & Hl2 & Hnew & Hsub & [_ Hr2|f Hs _|Htr _ _]);
    [|rewrite Hs in Hf1; discriminate|congruence].
  cbn zeta in Hr2. rewrite Hr2. cbn [fst snd st window heap].
  exists l1, l2. split.
  { intros <-. destruct Hl1 as (l & a & E & Hl & _). injection E as <-.
    unfold σ1 in Hnew. cbn [heap] in Hnew. congruence. }
  split; [reflexivity|]. split; [apply lookup_insert_eq|].
  split; [reflexivity|]. split.
  { unfold σ1. cbn [window]. apply insert_insert_eq. }
  split; [|exact Hl2].
  eapply Facts.is_listing_weaken; [exact Hsub|exact Hl1].
Qed.

Lemma deferred_twice_witness :
  truthy (hook_slot Samples.page_stale) = false
  ∧ ∃ l1 l2,
      l1 ≠ l2
      ∧ (run Samples.host_quiet Samples.page_stale).1 = Ok ()
      ∧ window (st (run Samples.host_quiet Samples.page_stale).2)
          !! "pending_implementors" = Some (VRef l1)
      ∧ (run Samples.host_quiet
           (st (run Samples.host_quiet Samples.page_stale).2)).1 = Ok ()
      ∧ window (st (run Samples.host_quiet
                      (st (run Samples.host_quiet Samples.page_stale).2)).2)
        = <["pending_implementors" := VRef l2]> (window Samples.page_stale)
      ∧ is_listing
          (heap (st (run Samples.host_quiet
                       (st (run Samples.host_quiet Samples.page_stale).2)).2))
          (VRef l1)
      ∧ is_listing
          (heap (st (run Samples.host_quiet
                       (st (run Samples.host_quiet Samples.page_stale).2)).2))
          (VRef l2).
Proof.
  split; [reflexivity|].
  apply (deferred_twice Samples.host_quiet Samples.page_stale).
  reflexivity.
Defined.

(** The second run on a page that has an object of its own: the listings
    get the next free references, the stale value is replaced. *)
Example run_page_stale_twice :
  window (st (run Samples.host_quiet
                (st (run Samples.host_quiet Samples.page_stale).2)).2)
  = {[ "pending_implementors" := VRef 4%positive;
       "title" := VString "Place" ]}
  ∧ window (st (run Samples.host_quiet Samples.page_stale).2)
      !! "pending_implementors" = Some (VRef 2%positive)
  ∧ heap (st (run Samples.host_quiet Samples.page_stale).2) !! 1%positive
    = Some (OArray [VNumber 3]).
Proof. repeat split; vm_compute; reflexivity. Qed.

End Behaviour.
